(** * Plugin repository client: version selection and download options

    A shallow embedding of [pkg/plugins/repo/service.go]: the
    compatibility predicate, the version selector, version normalisation
    and the construction of the download options, followed by the
    properties of these functions. *)

From Stdlib Require Import String Ascii List Bool Arith Lia Permutation.
From stdpp Require Import base option gmap strings list fin_maps.

Import ListNotations.
Local Open Scope string_scope.
Local Open Scope list_scope.

(** ** Data model *)

(** Modelled from the spec: the struct [ArchMeta] is declared outside the
    files at hand; the code reads its field [SHA256] only. *)
Record ArchMeta : Type := mkArchMeta { SHA256 : string }.

(** Modelled from the spec: the struct [Version] is declared outside the
    files at hand; the code reads the fields [Version] (here [Version_],
    the record itself has that name), [Arch] and [AngularDetected].  A Go
    map is either nil or a finite map, and the code tells the two apart:
    [None] is the nil map, [Some m] a map that was made. *)
Record Version : Type := mkVersion {
  Version_ : string;
  Arch : option (gmap string ArchMeta);
  AngularDetected : bool
}.

(** Modelled from the spec: the struct [Plugin] is declared outside the
    files at hand; the code reads [ID] and [Versions]. *)
Record Plugin : Type := mkPlugin {
  ID : string;
  Versions : list Version
}.

(** Modelled from the spec: the struct [CompatOpts] and its methods
    [OSAndArch()] and [Readable()] are declared outside the files at hand.
    The code observes a value of that type through the two method results
    and the field [AngularSupportEnabled]; the record holds these three
    observations. *)
Record CompatOpts : Type := mkCompatOpts {
  OSAndArch : string;
  Readable : string;
  AngularSupportEnabled : bool
}.

(** Modelled from the spec: the struct [PluginDownloadOptions] is declared
    outside the files at hand; the code fills [Version] (here
    [dl_Version]), [Checksum] and [PluginZipURL]. *)
Record PluginDownloadOptions : Type := mkPluginDownloadOptions {
  dl_Version : string;
  Checksum : string;
  PluginZipURL : string
}.

(** Modelled from the spec: the error structs are declared outside the
    files at hand; each constructor carries the fields that the struct
    literals of [selectVersion] set.  [ErrExternal] stands for the errors
    of [url.Parse], of the HTTP client and of [json.Unmarshal]. *)
Inductive error : Type :=
| ErrSupportedVersionNotFound (PluginID SystemInfo : string)
| ErrVersionNotFound (PluginID RequestedVersion SystemInfo : string)
| ErrVersionUnsupported (PluginID RequestedVersion SystemInfo : string)
| ErrExternal (msg : string).

(** The zero value of [Version] ([var ver Version]). *)
Definition zeroVersion : Version :=
  {| Version_ := ""; Arch := None; AngularDetected := false |}.

(** The zero value of [ArchMeta], which a map lookup yields for an absent
    key. *)
Definition zeroArchMeta : ArchMeta := {| SHA256 := "" |}.

(** ** Logging and errors

    The functions return a value or an error and write to the logger of
    the manager on the way: a computation yields the lines it logged and
    its outcome. *)

Inductive LogLine : Type :=
| LogDebug (msg : string)
| LogError (msg : string) (err : error).

Module LogErr.

Definition M (A : Type) : Type := (list LogLine * (error + A))%type.

Definition ret {A} (a : A) : M A := ([], inr a).

Definition fail {A} (e : error) : M A := ([], inl e).

Definition tell (l : LogLine) : M unit := ([l], inr tt).

Definition bind {A B} (m : M A) (k : A -> M B) : M B :=
  match m with
  | (ls, inl e) => (ls, inl e)
  | (ls, inr a) => let '(ls', r) := k a in (ls ++ ls', r)
  end.

Definition logs {A} (m : M A) : list LogLine := fst m.

Definition outcome {A} (m : M A) : error + A := snd m.

End LogErr.

Import LogErr.

Notation "x <- m ;; k" := (bind m (fun x => k))
  (at level 100, m at next level, right associativity).
Notation "m ;;; k" := (bind m (fun _ => k))
  (at level 100, right associativity).

(** ** Strings *)

(** [strings.ReplaceAll(s, old, new)] for a one-byte [old]. *)
Fixpoint ReplaceAll_byte (s : string) (old : ascii) (new : string) : string :=
  match s with
  | EmptyString => EmptyString
  | String ch rest =>
      if Ascii.eqb ch old
      then new ++ ReplaceAll_byte rest old new
      else String ch (ReplaceAll_byte rest old new)
  end.

(** [strings.HasPrefix(s, prefix)]. *)
Definition HasPrefix (s pre : string) : bool := String.prefix pre s.

(** The slice [s[1:]]; the code takes it of a string with a one-byte prefix. *)
Definition slice_from_1 (s : string) : string :=
  match s with
  | EmptyString => EmptyString
  | String _ rest => rest
  end.

Definition normalizeVersion (version : string) : string :=
  let normalized := ReplaceAll_byte version " "%char "" in
  if HasPrefix normalized "^" || HasPrefix normalized "v"
  then slice_from_1 normalized
  else normalized.

(** ** Compatibility *)

(** The loop of [supportsCurrentArch] over the keys of the map, in the
    order [keys] in which the range statement yields them. *)
Fixpoint archLoop (keys : list string) (osAndArch : string) : bool :=
  match keys with
  | [] => false
  | arch :: rest =>
      if String.eqb arch osAndArch || String.eqb arch "any"
      then true
      else archLoop rest osAndArch
  end.

Definition supportsCurrentArch (version : Version) (compatOpts : CompatOpts) : bool :=
  match Arch version with
  | None => true
  | Some m => archLoop (map fst (map_to_list m)) (OSAndArch compatOpts)
  end.

Definition isVersionCompatible (version : Version) (compatOpts : CompatOpts) : bool :=
  if negb (supportsCurrentArch version compatOpts) then false
  else if negb (AngularSupportEnabled compatOpts) && AngularDetected version then false
  else true.

(** The loop of [latestSupportedVersion]. *)
Fixpoint latestSupportedLoop (vs : list Version) (compatOpts : CompatOpts) : option Version :=
  match vs with
  | [] => None
  | v :: rest =>
      if negb (isVersionCompatible v compatOpts)
      then latestSupportedLoop rest compatOpts
      else Some v
  end.

Definition latestSupportedVersion (plugin : Plugin) (compatOpts : CompatOpts) : option Version :=
  latestSupportedLoop (Versions plugin) compatOpts.

(** ** Version selection *)

(** The loop of [selectVersion] that looks for the exact version: [ver]
    is the variable it assigns on the first match, after which it
    breaks. *)
Fixpoint exactVersionLoop (vs : list Version) (version : string) (ver : Version) : Version :=
  match vs with
  | [] => ver
  | v :: rest =>
      if String.eqb (Version_ v) version
      then v
      else exactVersionLoop rest version ver
  end.

Definition notFoundMsg (pluginID version fallback : string) : string :=
  "Requested plugin version " ++ pluginID ++ " v" ++ version
  ++ " not found but potential fallback version '" ++ fallback ++ "' was found".

Definition unsupportedMsg (pluginID version fallback : string) : string :=
  "Requested plugin version " ++ pluginID ++ " v" ++ version
  ++ " is not supported on your system but potential fallback version '"
  ++ fallback ++ "' was found".

Definition selectVersion (plugin : Plugin) (version : string) (compatOpts : CompatOpts)
  : M Version :=
  let version := normalizeVersion version in
  match latestSupportedVersion plugin compatOpts with
  | None =>
      fail (ErrSupportedVersionNotFound (ID plugin) (Readable compatOpts))
  | Some latestSupported =>
      if String.eqb version ""
      then ret latestSupported
      else
        let ver := exactVersionLoop (Versions plugin) version zeroVersion in
        if Nat.eqb (String.length (Version_ ver)) 0
        then
          tell (LogDebug (notFoundMsg (ID plugin) version (Version_ latestSupported))) ;;;
          fail (ErrVersionNotFound (ID plugin) version (Readable compatOpts))
        else if negb (isVersionCompatible ver compatOpts)
        then
          tell (LogDebug (unsupportedMsg (ID plugin) version (Version_ latestSupported))) ;;;
          fail (ErrVersionUnsupported (ID plugin) version (Readable compatOpts))
        else ret ver
  end.

(** ** The manager and the download options *)

(** The double quote, for the format strings that hold one. *)
Definition dquote : string := String (Ascii.ascii_of_nat 34) EmptyString.

Record Manager : Type := mkManager { baseURL : string }.

Section Collaborators.

(** The manager reaches the registry through [net/url], its HTTP client
    and [encoding/json]; their code is outside the files at hand, and
    the functions below take them as they are. *)
Variable URL : Type.
Variable url_Parse : string -> error + URL.
(** [u.Path = path.Join(u.Path, elem1, elem2)] *)
Variable url_JoinPath : URL -> string -> string -> URL.
Variable client_sendReq : URL -> CompatOpts -> M string.
Variable json_Unmarshal : string -> error + Plugin.

Definition pluginMetadata (m : Manager) (pluginID : string) (compatOpts : CompatOpts)
  : M Plugin :=
  tell (LogDebug ("Fetching metadata for plugin " ++ dquote ++ pluginID ++ dquote
                  ++ " from repo " ++ baseURL m)) ;;;
  match url_Parse (baseURL m) with
  | inl err => fail err
  | inr u =>
      let u := url_JoinPath u "repo" pluginID in
      body <- client_sendReq u compatOpts ;;
      match json_Unmarshal body with
      | inl err =>
          tell (LogError "Failed to unmarshal plugin repo response error" err) ;;;
          fail err
      | inr data => ret data
      end
  end.

Definition GetPluginDownloadOptions
  (m : Manager) (pluginID version : string) (compatOpts : CompatOpts)
  : M PluginDownloadOptions :=
  plugin <- pluginMetadata m pluginID compatOpts ;;
  v <- selectVersion plugin version compatOpts ;;
  let checksum :=
    match Arch v with
    | Some arch =>
        let archMeta :=
          match arch !! OSAndArch compatOpts with
          | Some archMeta => archMeta
          | None => default zeroArchMeta (arch !! "any")
          end in
        SHA256 archMeta
    | None => ""
    end in
  ret {| dl_Version := Version_ v;
         Checksum := checksum;
         PluginZipURL := baseURL m ++ "/" ++ pluginID ++ "/versions/"
                         ++ Version_ v ++ "/download" |}.

End Collaborators.

(** ** The words of the specification

    The checksum of a download plan as the specification resolves it: the
    entry at the exact architecture key, else the entry at the wildcard,
    else empty; empty without an architecture map. *)
Definition spec_checksum (release : Version) (constraints : CompatOpts) : string :=
  match Arch release with
  | None => ""
  | Some arch =>
      match arch !! OSAndArch constraints with
      | Some exact => SHA256 exact
      | None =>
          match arch !! "any" with
          | Some wildcard => SHA256 wildcard
          | None => ""
          end
      end
  end.

(** Normalisation in words: every space character is taken out, all
    other bytes stay in their order, and after that one leading "^" or
    "v" is dropped. *)
Definition spec_remove_spaces (s : string) : string :=
  string_of_list_ascii
    (List.filter (fun ch => negb (Ascii.eqb ch " "%char)) (list_ascii_of_string s)).

Definition spec_strip_marker (s : string) : string :=
  match s with
  | EmptyString => EmptyString
  | String ch rest =>
      if Ascii.eqb ch "^"%char || Ascii.eqb ch "v"%char then rest else s
  end.

Definition spec_normalize (v : string) : string :=
  spec_strip_marker (spec_remove_spaces v).

(** The compatibility of a release as the specification words it. *)
Definition spec_compatible (release : Version) (constraints : CompatOpts) : Prop :=
  (Arch release = None
   \/ exists arch, Arch release = Some arch
        /\ (is_Some (arch !! OSAndArch constraints) \/ is_Some (arch !! "any")))
  /\ (AngularSupportEnabled constraints = true \/ AngularDetected release = false).

(** [first_match P x l]: [x] is the first element of [l], in the order of
    the list, that satisfies [P]. *)
Definition first_match {A} (P : A -> Prop) (x : A) (l : list A) : Prop :=
  exists l1 l2, l = l1 ++ x :: l2 /\ Forall (fun y => ~ P y) l1 /\ P x.

(** [has_byte b s]: the byte [b] occurs in [s]. *)
Fixpoint has_byte (b : ascii) (s : string) : bool :=
  match s with
  | EmptyString => false
  | String ch rest => Ascii.eqb ch b || has_byte b rest
  end.

(** ** Sample data *)

Definition linux : CompatOpts :=
  {| OSAndArch := "linux-amd64"; Readable := "Linux amd64"; AngularSupportEnabled := false |}.

Definition rel (v : string) (angular : bool) : Version :=
  {| Version_ := v; Arch := None; AngularDetected := angular |}.

Definition foo : Plugin :=
  {| ID := "foo"; Versions := [rel "2.0.0" false; rel "1.0.0" false] |}.


(** The same two entries the other way round. *)
Definition twice_rev : Plugin :=
  {| ID := "twice"; Versions := [rel "1.0.0" false; rel "1.0.0" true] |}.

(** A catalog whose only entry spells its version with a leading "v". *)
Definition prefixed : Plugin :=
  {| ID := "prefixed"; Versions := [rel "v1.0.0" false] |}.

Definition only_angular : Plugin :=
  {| ID := "legacy"; Versions := [rel "3.0.0" true] |}.

Definition sha_map (sha1 sha2 : string) : gmap string ArchMeta :=
  <["linux_amd64" := mkArchMeta sha1]> (<["any" := mkArchMeta sha2]> ∅).

Definition darwin : CompatOpts :=
  {| OSAndArch := "darwin_arm64"; Readable := "Darwin arm64"; AngularSupportEnabled := true |}.

(** A release flagged angular-detected ahead of one that is not. *)
Definition angular_first : Plugin :=
  {| ID := "bar"; Versions := [rel "3.0.0" true; rel "2.0.0" false] |}.

(** Two catalogs that differ in their newest compatible release only. *)
Definition newest_2 : Plugin :=
  {| ID := "baz"; Versions := [rel "2.0.0" false] |}.

Definition newest_3 : Plugin :=
  {| ID := "baz"; Versions := [rel "3.0.0" false] |}.

Definition with_checksums : Plugin :=
  {| ID := "sums";
     Versions := [ {| Version_ := "1.0.0";
                      Arch := Some (sha_map "sha1" "sha2");
                      AngularDetected := false |} ] |}.

Definition empty_arch : Version :=
  {| Version_ := "1.0.0"; Arch := Some ∅; AngularDetected := false |}.

Definition grafana_com : Manager :=
  {| baseURL := "https://grafana.com/api/plugins" |}.

(** Stand-ins for the registry: a URL is its text, the request is
    answered with a body, and the body decodes to [with_checksums]. *)
Definition sample_JoinPath (u elem1 elem2 : string) : string :=
  u ++ "/" ++ elem1 ++ "/" ++ elem2.

Definition sample_sendReq (u : string) (compatOpts : CompatOpts) : M string :=
  ret "{}".

Definition sample_Unmarshal (body : string) : error + Plugin :=
  inr with_checksums.

Definition sample_fetch_line : LogLine :=
  LogDebug ("Fetching metadata for plugin " ++ dquote ++ "sums" ++ dquote
            ++ " from repo https://grafana.com/api/plugins").

(** A release whose architecture map holds the wildcard alone. *)
Definition any_only : Version :=
  {| Version_ := "1.0.0";
     Arch := Some (<["any" := mkArchMeta "sha2"]> ∅);
     AngularDetected := false |}.

(** The constraints [linux] with angular support switched on. *)
Definition linux_angular : CompatOpts :=
  {| OSAndArch := "linux-amd64"; Readable := "Linux amd64"; AngularSupportEnabled := true |}.

(** The horizontal tab. *)
Definition tab : string := String (Ascii.ascii_of_nat 9) EmptyString.

(** ** Fetching the archive *)

Section Archive.

(** [m.client.download] is code outside the files at hand; it is taken as
    it is, with the type of the archives it returns. *)
Variable URL : Type.
Variable url_Parse : string -> error + URL.
Variable url_JoinPath : URL -> string -> string -> URL.
Variable client_sendReq : URL -> CompatOpts -> M string.
Variable json_Unmarshal : string -> error + Plugin.
Variable PluginArchive : Type.
(** [download(ctx, pluginZipURL, checksum, compatOpts)] *)
Variable client_download : string -> string -> CompatOpts -> M PluginArchive.

Definition GetPluginArchive
  (m : Manager) (pluginID version : string) (compatOpts : CompatOpts)
  : M PluginArchive :=
  dlOpts <- GetPluginDownloadOptions URL url_Parse url_JoinPath client_sendReq
              json_Unmarshal m pluginID version compatOpts ;;
  client_download (PluginZipURL dlOpts) (Checksum dlOpts) compatOpts.

Definition GetPluginArchiveByURL
  (m : Manager) (pluginZipURL : string) (compatOpts : CompatOpts)
  : M PluginArchive :=
  client_download pluginZipURL "" compatOpts.

End Archive.

(** The line that [pluginMetadata] logs first. *)
Definition fetchLine (m : Manager) (pluginID : string) : LogLine :=
  LogDebug ("Fetching metadata for plugin " ++ dquote ++ pluginID ++ dquote
            ++ " from repo " ++ baseURL m).

(** The address [GetPluginDownloadOptions] builds for a version string. *)
Definition downloadURL (m : Manager) (pluginID version : string) : string :=
  baseURL m ++ "/" ++ pluginID ++ "/versions/" ++ version ++ "/download".

(** A stand-in for the download: the archive is the request it was asked
    for, and a request for the empty address fails. *)
Definition sample_download (pluginZipURL checksum : string) (compatOpts : CompatOpts)
  : M (string * string) :=
  if String.eqb pluginZipURL ""
  then fail (ErrExternal "no address")
  else ret (pluginZipURL, checksum).

(** A client that fails every request. *)
Definition failing_sendReq (u : string) (compatOpts : CompatOpts) : M string :=
  fail (ErrExternal "connection refused").

(** A client that answers the request for the catalog of "sums" and no
    other. *)
Definition picky_sendReq (u : string) (compatOpts : CompatOpts) : M string :=
  if String.eqb u "https://grafana.com/api/plugins/repo/sums"
  then ret "{}"
  else fail (ErrExternal "not found").

(** A decoder that rejects every body. *)
Definition failing_Unmarshal (body : string) : error + Plugin :=
  inl (ErrExternal "unexpected end of JSON input").

(** A decoder that yields the catalog [angular_first]. *)
Definition angular_Unmarshal (body : string) : error + Plugin :=
  inr angular_first.

(** * Properties *)

(** ** Normalisation *)

Lemma ReplaceAll_byte_removes (s : string) (b : ascii) :
  has_byte b (ReplaceAll_byte s b "") = false.
Proof.
  induction s as [|ch rest IH]; simpl; [reflexivity|].
  destruct (Ascii.eqb ch b) eqn:E; simpl; [exact IH|].
  rewrite E. exact IH.
Qed.

Lemma ReplaceAll_byte_absent (s : string) (b : ascii) (new : string) :
  has_byte b s = false -> ReplaceAll_byte s b new = s.
Proof.
  induction s as [|ch rest IH]; simpl; [reflexivity|].
  intros H. apply orb_false_iff in H as [E H].
  rewrite E. f_equal. exact (IH H).
Qed.

Lemma has_byte_slice (s : string) (b : ascii) :
  has_byte b s = false -> has_byte b (slice_from_1 s) = false.
Proof.
  destruct s as [|ch rest]; simpl; [reflexivity|].
  intros H. apply orb_false_iff in H. tauto.
Qed.

Lemma normalizeVersion_no_space (v : string) :
  has_byte " "%char (normalizeVersion v) = false.
Proof.
  unfold normalizeVersion.
  pose proof (ReplaceAll_byte_removes v " "%char) as H.
  destruct (_ || _); [apply has_byte_slice|]; exact H.
Qed.

Lemma slice_from_1_shorter (s : string) :
  s <> "" -> String.length (slice_from_1 s) < String.length s.
Proof. destruct s; simpl; [congruence | lia]. Qed.

Lemma HasPrefix_nonempty (s pre : string) :
  pre <> "" -> HasPrefix s pre = true -> s <> "".
Proof.
  unfold HasPrefix. destruct pre, s; simpl; congruence.
Qed.

(** One more call of [normalizeVersion] on a space-free string strips
    one more leading marker, when there is one. *)
Lemma normalizeVersion_space_free (s : string) :
  has_byte " "%char s = false ->
  normalizeVersion s =
    if HasPrefix s "^" || HasPrefix s "v" then slice_from_1 s else s.
Proof.
  intros H. unfold normalizeVersion.
  rewrite (ReplaceAll_byte_absent _ _ _ H). reflexivity.
Qed.

Lemma HasPrefix_byte (ch a : ascii) (rest : string) :
  HasPrefix (String ch rest) (String a EmptyString) = true <-> ch = a.
Proof.
  unfold HasPrefix. simpl. destruct (ascii_dec a ch) as [->|Hne].
  - destruct rest; simpl; tauto.
  - split; [discriminate | congruence].
Qed.

Lemma HasPrefix_byte_eqb (ch a : ascii) (rest : string) :
  HasPrefix (String ch rest) (String a EmptyString) = Ascii.eqb ch a.
Proof.
  apply eq_true_iff_eq. rewrite HasPrefix_byte. symmetry. apply Ascii.eqb_eq.
Qed.

Lemma ReplaceAll_byte_filter (s : string) :
  ReplaceAll_byte s " "%char "" = spec_remove_spaces s.
Proof.
  unfold spec_remove_spaces.
  induction s as [|ch rest IH]; simpl; [reflexivity|].
  destruct (Ascii.eqb ch " "%char); simpl; rewrite IH; reflexivity.
Qed.

(** The code normalises as the words say. *)
Lemma normalizeVersion_spec (v : string) :
  normalizeVersion v = spec_normalize v.
Proof.
  unfold normalizeVersion, spec_normalize. rewrite ReplaceAll_byte_filter.
  destruct (spec_remove_spaces v) as [|ch rest]; [reflexivity|].
  rewrite !HasPrefix_byte_eqb. reflexivity.
Qed.

(** C7, as the code has it: a second normalisation changes nothing exactly
    when the first result does not begin with "v" or "^" (each call strips
    one leading marker); "v1.2.3", "1.2.3" and "^1.2.3" all normalise to
    "1.2.3". *)
Theorem normalizeVersion_idempotent_iff :
  (forall v : string,
      normalizeVersion (normalizeVersion v) = normalizeVersion v
      <-> HasPrefix (normalizeVersion v) "^" || HasPrefix (normalizeVersion v) "v" = false)
  /\ normalizeVersion "v1.2.3" = "1.2.3"
  /\ normalizeVersion "1.2.3" = "1.2.3"
  /\ normalizeVersion "^1.2.3" = "1.2.3".
Proof.
  split; [|repeat split; reflexivity].
  intros v.
  rewrite (normalizeVersion_space_free _ (normalizeVersion_no_space v)).
  destruct (_ || _) eqn:E.
  - split; [|discriminate].
    intros Heq. exfalso.
    assert (Hne : normalizeVersion v <> "").
    { apply orb_true_iff in E as [E|E];
        eapply HasPrefix_nonempty; try exact E; discriminate. }
    pose proof (slice_from_1_shorter _ Hne) as Hlt.
    rewrite Heq in Hlt. lia.
  - split; reflexivity.
Qed.

(** C7, as stated, fails: the normal form of "vv1.2.3" is "v1.2.3", and
    normalising that gives "1.2.3". *)
Lemma normalizeVersion_not_idempotent :
  normalizeVersion (normalizeVersion "vv1.2.3") <> normalizeVersion "vv1.2.3".
Proof. vm_compute. discriminate. Qed.

(** ** Compatibility *)

Lemma archLoop_true (keys : list string) (osAndArch : string) :
  archLoop keys osAndArch = true <-> In osAndArch keys \/ In "any" keys.
Proof.
  induction keys as [|arch rest IH]; simpl.
  - split; [discriminate | tauto].
  - destruct (String.eqb arch osAndArch) eqn:E1; simpl.
    + apply String.eqb_eq in E1. split; auto.
    + destruct (String.eqb arch "any") eqn:E2.
      * apply String.eqb_eq in E2. split; auto.
      * apply String.eqb_neq in E1, E2. rewrite IH.
        split; intros [H|H]; auto; destruct H as [H|H]; auto; congruence.
Qed.

(** The order in which the range statement yields the keys does not
    matter to the loop. *)
Lemma archLoop_Permutation (keys keys' : list string) (osAndArch : string) :
  Permutation keys keys' -> archLoop keys osAndArch = archLoop keys' osAndArch.
Proof.
  intros HP. apply eq_true_iff_eq. rewrite !archLoop_true.
  split; intros [H|H]; eauto using Permutation_in, Permutation_sym.
Qed.

Lemma In_map_to_list_keys (m : gmap string ArchMeta) (k : string) :
  In k (map fst (map_to_list m)) <-> is_Some (m !! k).
Proof.
  rewrite in_map_iff. split.
  - intros [[k' x] [Hk Hin]]. simpl in Hk. subst k'.
    apply list_elem_of_In, elem_of_map_to_list in Hin. eauto.
  - intros [x Hx]. exists (k, x). split; [reflexivity|].
    apply list_elem_of_In, elem_of_map_to_list. exact Hx.
Qed.

Lemma supportsCurrentArch_true (version : Version) (compatOpts : CompatOpts) :
  supportsCurrentArch version compatOpts = true
  <-> Arch version = None
      \/ exists arch, Arch version = Some arch
           /\ (is_Some (arch !! OSAndArch compatOpts) \/ is_Some (arch !! "any")).
Proof.
  unfold supportsCurrentArch. destruct (Arch version) as [m|].
  - rewrite archLoop_true, !In_map_to_list_keys. split.
    + intros H. right. exists m. auto.
    + intros [H|[m' [Heq H]]]; [discriminate|]. congruence.
  - split; auto.
Qed.

(** C2: [isVersionCompatible] holds exactly when the release has no
    architecture map, or its map has the exact architecture key or the
    key "any", and angular support is enabled or the release is not
    flagged angular-detected. *)
Theorem isVersionCompatible_iff_spec (version : Version) (compatOpts : CompatOpts) :
  isVersionCompatible version compatOpts = true <-> spec_compatible version compatOpts.
Proof.
  unfold isVersionCompatible, spec_compatible.
  rewrite <- supportsCurrentArch_true.
  destruct (supportsCurrentArch version compatOpts),
    (AngularSupportEnabled compatOpts), (AngularDetected version); simpl;
    intuition discriminate.
Qed.

Lemma supportsCurrentArch_empty_map (version : Version) (compatOpts : CompatOpts) :
  Arch version = Some ∅ -> supportsCurrentArch version compatOpts = false.
Proof.
  intros H. unfold supportsCurrentArch. rewrite H.
  rewrite map_to_list_empty. reflexivity.
Qed.

Lemma supportsCurrentArch_forall_iff (v : Version) :
  (forall c : CompatOpts, supportsCurrentArch v c = true)
  <-> Arch v = None
      \/ exists m, Arch v = Some m /\ is_Some (m !! "any").
Proof.
  split.
  - intros Hall. destruct (Arch v) as [m|] eqn:Ha; [|auto].
    right. exists m. split; [reflexivity|].
    destruct (exist_fresh (dom m)) as [k Hk].
    specialize (Hall {| OSAndArch := k; Readable := ""; AngularSupportEnabled := false |}).
    apply supportsCurrentArch_true in Hall as [Hn|(m' & Hm' & [Hs|Hs])].
    + congruence.
    + exfalso. apply Hk. simpl in Hs. apply elem_of_dom. congruence.
    + congruence.
  - intros H c. apply supportsCurrentArch_true.
    destruct H as [H|(m & Hm & Hs)]; [auto|].
    right. exists m. auto.
Qed.

(** ** The two loops of the selector *)

Lemma first_match_head {A} (P : A -> Prop) (x : A) (l : list A) :
  P x -> first_match P x (x :: l).
Proof. intros H. exists [], l. auto. Qed.

Lemma first_match_tail {A} (P : A -> Prop) (x y : A) (l : list A) :
  ~ P y -> first_match P x l -> first_match P x (y :: l).
Proof.
  intros Hy (l1 & l2 & -> & Hall & Hx).
  exists (y :: l1), l2. auto.
Qed.

Lemma first_match_In {A} (P : A -> Prop) (x : A) (l : list A) :
  first_match P x l -> In x l /\ P x.
Proof.
  intros (l1 & l2 & -> & _ & Hx). split; [|exact Hx].
  apply in_or_app. right. left. reflexivity.
Qed.

Lemma first_match_cons_inv {A} (P : A -> Prop) (x y : A) (l : list A) :
  first_match P x (y :: l) -> (x = y /\ P y) \/ (~ P y /\ first_match P x l).
Proof.
  intros (l1 & l2 & Heq & Hall & Hx).
  destruct l1 as [|z l1]; simpl in Heq; injection Heq as -> ->.
  - left. auto.
  - right. inversion Hall; subst. split; [assumption|].
    exists l1, l2. auto.
Qed.

Lemma first_match_not_all {A} (P : A -> Prop) (x : A) (l : list A) :
  first_match P x l -> Forall (fun y => ~ P y) l -> False.
Proof.
  intros H Hall. apply first_match_In in H as [Hin Hx].
  rewrite List.Forall_forall in Hall. exact (Hall x Hin Hx).
Qed.

Lemma latestSupportedLoop_Some (vs : list Version) (c : CompatOpts) (r : Version) :
  latestSupportedLoop vs c = Some r
  <-> first_match (fun x => isVersionCompatible x c = true) r vs.
Proof.
  induction vs as [|v rest IH]; simpl.
  - split; [discriminate|]. intros ([|] & ? & H & _); discriminate H.
  - destruct (isVersionCompatible v c) eqn:E; simpl.
    + split.
      * intros [= <-]. apply first_match_head. exact E.
      * intros H. apply first_match_cons_inv in H as [[-> _]|[Hn _]];
          [reflexivity | congruence].
    + rewrite IH. split.
      * apply first_match_tail. congruence.
      * intros H. apply first_match_cons_inv in H as [[-> Hv]|[_ H]];
          [congruence | exact H].
Qed.

Lemma latestSupportedLoop_None (vs : list Version) (c : CompatOpts) :
  latestSupportedLoop vs c = None
  <-> Forall (fun x => isVersionCompatible x c = false) vs.
Proof.
  induction vs as [|v rest IH]; simpl.
  - split; auto.
  - destruct (isVersionCompatible v c) eqn:E; simpl.
    + split; [discriminate|]. intros H. inversion H; congruence.
    + rewrite IH. split; [auto|]. intros H. inversion H; assumption.
Qed.

Lemma latestSupportedLoop_In (vs : list Version) (c : CompatOpts) (r : Version) :
  In r vs -> isVersionCompatible r c = true ->
  exists ls, latestSupportedLoop vs c = Some ls.
Proof.
  intros Hin Hr. destruct (latestSupportedLoop vs c) as [ls|] eqn:E; [eauto|].
  apply latestSupportedLoop_None in E. rewrite List.Forall_forall in E.
  specialize (E r Hin). congruence.
Qed.

Lemma exactVersionLoop_first (vs : list Version) (version : string) (ver e : Version) :
  first_match (fun x => Version_ x = version) e vs ->
  exactVersionLoop vs version ver = e.
Proof.
  induction vs as [|v rest IH]; simpl.
  - intros ([|] & ? & H & _); discriminate H.
  - intros H. apply first_match_cons_inv in H as [[-> Hv]|[Hn H]].
    + apply String.eqb_eq in Hv. rewrite Hv. reflexivity.
    + apply String.eqb_neq in Hn. rewrite Hn. exact (IH H).
Qed.

Lemma exactVersionLoop_none (vs : list Version) (version : string) (ver : Version) :
  Forall (fun x => Version_ x <> version) vs ->
  exactVersionLoop vs version ver = ver.
Proof.
  induction 1 as [|v rest Hv _ IH]; simpl; [reflexivity|].
  apply String.eqb_neq in Hv. rewrite Hv. exact IH.
Qed.

(** Either no entry carries the version string, or some entry is the
    first that does. *)
Lemma exact_match_dec (vs : list Version) (version : string) :
  Forall (fun x => Version_ x <> version) vs
  \/ exists e, first_match (fun x => Version_ x = version) e vs.
Proof.
  induction vs as [|v rest IH].
  - left. constructor.
  - destruct (String.eqb (Version_ v) version) eqn:E.
    + apply String.eqb_eq in E. right. exists v. apply first_match_head. exact E.
    + apply String.eqb_neq in E. destruct IH as [IH|[e IH]].
      * left. constructor; assumption.
      * right. exists e. apply first_match_tail; assumption.
Qed.

(** ** The selector, case by case *)

Section SelectVersion.

Variable plugin : Plugin.
Variable requested : string.
Variable compatOpts : CompatOpts.

Lemma selectVersion_none :
  latestSupportedVersion plugin compatOpts = None ->
  selectVersion plugin requested compatOpts
  = fail (ErrSupportedVersionNotFound (ID plugin) (Readable compatOpts)).
Proof. intros H. unfold selectVersion. rewrite H. reflexivity. Qed.

Lemma selectVersion_latest (latestSupported : Version) :
  latestSupportedVersion plugin compatOpts = Some latestSupported ->
  normalizeVersion requested = "" ->
  selectVersion plugin requested compatOpts = ret latestSupported.
Proof.
  intros H Hv. unfold selectVersion. rewrite H, Hv. reflexivity.
Qed.

Lemma selectVersion_not_found (latestSupported : Version) :
  latestSupportedVersion plugin compatOpts = Some latestSupported ->
  normalizeVersion requested <> "" ->
  Forall (fun x => Version_ x <> normalizeVersion requested) (Versions plugin) ->
  selectVersion plugin requested compatOpts
  = ([LogDebug (notFoundMsg (ID plugin) (normalizeVersion requested) (Version_ latestSupported))],
     inl (ErrVersionNotFound (ID plugin) (normalizeVersion requested) (Readable compatOpts))).
Proof.
  intros H Hv Hall. unfold selectVersion. rewrite H.
  apply String.eqb_neq in Hv. rewrite Hv.
  rewrite (exactVersionLoop_none _ _ _ Hall). reflexivity.
Qed.

Lemma selectVersion_first (latestSupported e : Version) :
  latestSupportedVersion plugin compatOpts = Some latestSupported ->
  normalizeVersion requested <> "" ->
  first_match (fun x => Version_ x = normalizeVersion requested) e (Versions plugin) ->
  selectVersion plugin requested compatOpts
  = if isVersionCompatible e compatOpts
    then ret e
    else ([LogDebug (unsupportedMsg (ID plugin) (normalizeVersion requested) (Version_ latestSupported))],
          inl (ErrVersionUnsupported (ID plugin) (normalizeVersion requested) (Readable compatOpts))).
Proof.
  intros H Hv He. unfold selectVersion. rewrite H.
  rewrite (exactVersionLoop_first _ _ _ _ He).
  apply first_match_In in He as [_ He].
  assert (Hlen : Nat.eqb (String.length (Version_ e)) 0 = false).
  { rewrite He. destruct (normalizeVersion requested); [congruence | reflexivity]. }
  apply String.eqb_neq in Hv. rewrite Hv, Hlen.
  destruct (isVersionCompatible e compatOpts); reflexivity.
Qed.

End SelectVersion.

(** ** The selector *)

Lemma latestSupported_compatible (p : Plugin) (c : CompatOpts) (ls : Version) :
  latestSupportedVersion p c = Some ls -> isVersionCompatible ls c = true.
Proof.
  intros H. apply latestSupportedLoop_Some, first_match_In in H. tauto.
Qed.

Lemma normalized_empty_dec (req : string) :
  {normalizeVersion req = ""} + {normalizeVersion req <> ""}.
Proof. apply string_dec. Qed.

Lemma selectVersion_inr_compatible
  (p : Plugin) (req : string) (c : CompatOpts) (v : Version) :
  outcome (selectVersion p req c) = inr v -> isVersionCompatible v c = true.
Proof.
  destruct (latestSupportedVersion p c) as [ls|] eqn:Hls.
  - pose proof (latestSupported_compatible _ _ _ Hls) as Hc.
    destruct (normalized_empty_dec req) as [He|Hne].
    + rewrite (selectVersion_latest _ _ _ _ Hls He). simpl. congruence.
    + destruct (exact_match_dec (Versions p) (normalizeVersion req)) as [Hall|[e He]].
      * rewrite (selectVersion_not_found _ _ _ _ Hls Hne Hall). discriminate.
      * rewrite (selectVersion_first _ _ _ _ _ Hls Hne He).
        destruct (isVersionCompatible e c) eqn:E; simpl; congruence.
  - rewrite (selectVersion_none _ _ _ Hls). discriminate.
Qed.

(** C1: a release that [selectVersion] returns is compatible with the
    constraints it was selected under. *)
Theorem selectVersion_returns_compatible
  (p : Plugin) (req : string) (c : CompatOpts) (v : Version) :
  outcome (selectVersion p req c) = inr v -> isVersionCompatible v c = true.
Proof. exact (selectVersion_inr_compatible p req c v). Qed.

Lemma selectVersion_returns_compatible_witness :
  isVersionCompatible (rel "1.0.0" false) linux = true.
Proof.
  apply (selectVersion_returns_compatible foo "v1.0.0" linux).
  vm_compute. reflexivity.
Defined.

(** C3: with an empty normalised request and a compatible release in the
    catalog, [selectVersion] returns the first compatible release in the
    order of the catalog. *)
Theorem selectVersion_empty_request (p : Plugin) (req : string) (c : CompatOpts) :
  normalizeVersion req = "" ->
  (exists r, In r (Versions p) /\ isVersionCompatible r c = true) ->
  exists r,
    first_match (fun x => isVersionCompatible x c = true) r (Versions p)
    /\ selectVersion p req c = ret r.
Proof.
  intros He (r & Hin & Hr).
  destruct (latestSupportedLoop_In _ _ _ Hin Hr) as [ls Hls].
  exists ls. split.
  - apply latestSupportedLoop_Some. exact Hls.
  - apply selectVersion_latest; assumption.
Qed.

Lemma selectVersion_empty_request_witness :
  exists r,
    first_match (fun x => isVersionCompatible x linux = true) r (Versions angular_first)
    /\ selectVersion angular_first " " linux = ret r.
Proof.
  apply (selectVersion_empty_request angular_first " " linux).
  - reflexivity.
  - exists (rel "2.0.0" false). split; [simpl; auto | reflexivity].
Defined.




(** With version strings that occur once in the catalog, every compatible
    entry is returned for its own version string. *)
Lemma selectVersion_exact_unique
  (p : Plugin) (req : string) (c : CompatOpts) (e : Version) :
  normalizeVersion req <> "" ->
  List.NoDup (map Version_ (Versions p)) ->
  In e (Versions p) ->
  Version_ e = normalizeVersion req ->
  isVersionCompatible e c = true ->
  selectVersion p req c = ret e.
Proof.
  intros Hne Hnd Hin Hv Hc.
  destruct (latestSupportedLoop_In _ _ _ Hin Hc) as [ls Hls].
  assert (He : first_match (fun x => Version_ x = normalizeVersion req) e (Versions p)).
  { apply in_split in Hin as (l1 & l2 & Heq). exists l1, l2.
    split; [exact Heq|]. split; [|exact Hv].
    rewrite Heq, map_app in Hnd. simpl in Hnd.
    apply NoDup_remove_2 in Hnd.
    apply List.Forall_forall. intros y Hy Hyv. apply Hnd.
    apply in_or_app. left. rewrite Hv, <- Hyv. apply in_map. exact Hy. }
  rewrite (selectVersion_first _ _ _ _ _ Hls Hne He), Hc. reflexivity.
Qed.

(** C5: when no release of the catalog is compatible, [selectVersion]
    fails with [ErrSupportedVersionNotFound], which carries the plugin id
    and the readable form of the constraints, whatever version was
    requested. *)
Theorem selectVersion_no_supported_version
  (p : Plugin) (req : string) (c : CompatOpts) :
  Forall (fun r => isVersionCompatible r c = false) (Versions p) ->
  selectVersion p req c = fail (ErrSupportedVersionNotFound (ID p) (Readable c)).
Proof.
  intros H. apply selectVersion_none, latestSupportedLoop_None. exact H.
Qed.

Lemma selectVersion_no_supported_version_witness :
  selectVersion only_angular "3.0.0" linux
  = fail (ErrSupportedVersionNotFound "legacy" "Linux amd64").
Proof.
  apply (selectVersion_no_supported_version only_angular "3.0.0" linux).
  repeat constructor.
Defined.

(** C6, as the code has it: with a compatible release in the catalog and
    a non-empty normalised request, [selectVersion] fails with
    [ErrVersionNotFound] exactly when no entry carries the normalised
    request as its version string, and with [ErrVersionUnsupported]
    exactly when the first entry that carries it is not compatible.  Both
    errors carry the plugin id, the normalised request and the readable
    form of the constraints; the version of the latest supported release
    goes to the debug log and not into the error. *)
Theorem selectVersion_exact_failures
  (p : Plugin) (req : string) (c : CompatOpts) (ls : Version) :
  latestSupportedVersion p c = Some ls ->
  normalizeVersion req <> "" ->
  (selectVersion p req c
   = ([LogDebug (notFoundMsg (ID p) (normalizeVersion req) (Version_ ls))],
      inl (ErrVersionNotFound (ID p) (normalizeVersion req) (Readable c)))
   <-> Forall (fun x => Version_ x <> normalizeVersion req) (Versions p))
  /\ (selectVersion p req c
      = ([LogDebug (unsupportedMsg (ID p) (normalizeVersion req) (Version_ ls))],
         inl (ErrVersionUnsupported (ID p) (normalizeVersion req) (Readable c)))
      <-> exists e,
          first_match (fun x => Version_ x = normalizeVersion req) e (Versions p)
          /\ isVersionCompatible e c = false).
Proof.
  intros Hls Hne.
  destruct (exact_match_dec (Versions p) (normalizeVersion req)) as [Hall|[e He]].
  - rewrite (selectVersion_not_found _ _ _ _ Hls Hne Hall). split.
    + split; auto.
    + split; [discriminate|].
      intros (e & He & _). destruct (first_match_not_all _ _ _ He Hall).
  - rewrite (selectVersion_first _ _ _ _ _ Hls Hne He).
    destruct (isVersionCompatible e c) eqn:E.
    + split; (split; [discriminate|]).
      * intros Hall. destruct (first_match_not_all _ _ _ He Hall).
      * intros (e' & He' & E').
        pose proof (selectVersion_first _ _ _ _ _ Hls Hne He) as H1.
        pose proof (selectVersion_first _ _ _ _ _ Hls Hne He') as H2.
        rewrite E in H1. rewrite E' in H2. rewrite H1 in H2. discriminate.
    + split.
      * split; [discriminate|].
        intros Hall. destruct (first_match_not_all _ _ _ He Hall).
      * split; [|reflexivity]. intros _. exists e. auto.
Qed.

Lemma selectVersion_exact_failures_witness :
  selectVersion angular_first "3.0.0" linux
  = ([LogDebug (unsupportedMsg "bar" "3.0.0" "2.0.0")],
     inl (ErrVersionUnsupported "bar" "3.0.0" "Linux amd64")).
Proof.
  apply (selectVersion_exact_failures angular_first "3.0.0" linux (rel "2.0.0" false)).
  - reflexivity.
  - vm_compute. discriminate.
  - exists (rel "3.0.0" true). split; [|reflexivity].
    apply first_match_head. reflexivity.
Defined.

(** C6, as stated, fails twice.  The errors do not carry the fallback: the
    catalogs [newest_2] and [newest_3] differ in their latest supported
    release and yield one and the same error.  And an entry that carries
    the requested version string and is not compatible does not make the
    selector fail when an earlier entry with that string is compatible. *)
Lemma selectVersion_error_without_fallback :
  ~ (exists fallback : error -> string,
        forall (p : Plugin) (req : string) (c : CompatOpts) (ls : Version) (e : error),
          latestSupportedVersion p c = Some ls ->
          outcome (selectVersion p req c) = inl e ->
          fallback e = Version_ ls)
  /\ ~ (forall (p : Plugin) (req : string) (c : CompatOpts) (ls : Version),
           latestSupportedVersion p c = Some ls ->
           normalizeVersion req <> "" ->
           (exists a b d, outcome (selectVersion p req c) = inl (ErrVersionUnsupported a b d))
           <-> (exists e, In e (Versions p)
                          /\ Version_ e = normalizeVersion req
                          /\ isVersionCompatible e c = false)).
Proof.
  split.
  - intros [fallback H].
    pose proof (H newest_2 "9.9.9" linux (rel "2.0.0" false) _ eq_refl eq_refl) as H2.
    pose proof (H newest_3 "9.9.9" linux (rel "3.0.0" false) _ eq_refl eq_refl) as H3.
    simpl in H2, H3. rewrite H2 in H3. discriminate.
  - intros H.
    destruct (H twice_rev "1.0.0" linux (rel "1.0.0" false) eq_refl) as [_ Hback].
    + vm_compute. discriminate.
    + destruct Hback as (a & b & d & Hout).
      * exists (rel "1.0.0" true). simpl. auto.
      * vm_compute in Hout. discriminate.
Qed.

(** C8, as the code has it: the requested version alone is normalised,
    by removing every space character, with all other bytes kept, and
    then one leading "^" or "v" ([spec_normalize]);
    the version strings of the catalog are compared as they are stored.
    A release returned for a non-empty request is the first entry whose
    stored string equals the normalised request; a request "v1.0.0"
    finds the entry "1.0.0", and a request "1.0.0" does not find the
    entry "v1.0.0". *)
Theorem selectVersion_normalizes_request_only :
  (forall v : string, normalizeVersion v = spec_normalize v)
  /\ (forall v : string, has_byte " "%char (normalizeVersion v) = false)
  /\ (forall s : string,
         has_byte " "%char s = false ->
         normalizeVersion s
         = if HasPrefix s "^" || HasPrefix s "v" then slice_from_1 s else s)
  /\ (forall (p : Plugin) (req : string) (c : CompatOpts) (e : Version),
         normalizeVersion req <> "" ->
         outcome (selectVersion p req c) = inr e ->
         first_match (fun x => Version_ x = normalizeVersion req) e (Versions p))
  /\ (forall (id : string) (e : Version) (c : CompatOpts),
         Version_ e = "1.0.0" ->
         isVersionCompatible e c = true ->
         selectVersion {| ID := id; Versions := [e] |} "v1.0.0" c = ret e)
  /\ (forall (id : string) (e : Version) (c : CompatOpts),
         Version_ e = "v1.0.0" ->
         isVersionCompatible e c = true ->
         outcome (selectVersion {| ID := id; Versions := [e] |} "1.0.0" c)
         = inl (ErrVersionNotFound id "1.0.0" (Readable c))).
Proof.
  split; [exact normalizeVersion_spec|].
  split; [exact normalizeVersion_no_space|].
  split; [exact normalizeVersion_space_free|].
  split; [|split].
  - intros p req c e Hne Hout.
    destruct (latestSupportedVersion p c) as [ls|] eqn:Hls.
    + destruct (exact_match_dec (Versions p) (normalizeVersion req)) as [Hall|[e' He']].
      * rewrite (selectVersion_not_found _ _ _ _ Hls Hne Hall) in Hout. discriminate.
      * rewrite (selectVersion_first _ _ _ _ _ Hls Hne He') in Hout.
        destruct (isVersionCompatible e' c); simpl in Hout; [|discriminate].
        injection Hout as <-. exact He'.
    + rewrite (selectVersion_none _ _ _ Hls) in Hout. discriminate.
  - intros id e c Hv Hc.
    assert (Hls : latestSupportedVersion {| ID := id; Versions := [e] |} c = Some e).
    { unfold latestSupportedVersion. simpl. rewrite Hc. reflexivity. }
    rewrite (selectVersion_first _ _ _ _ e Hls), Hc; [reflexivity | discriminate |].
    apply first_match_head. exact Hv.
  - intros id e c Hv Hc.
    assert (Hls : latestSupportedVersion {| ID := id; Versions := [e] |} c = Some e).
    { unfold latestSupportedVersion. simpl. rewrite Hc. reflexivity. }
    rewrite (selectVersion_not_found _ _ _ _ Hls); [reflexivity | discriminate |].
    simpl. constructor; [|constructor]. rewrite Hv. discriminate.
Qed.

Lemma selectVersion_normalizes_request_only_witness :
  normalizeVersion " v1. 0.0" = "1.0.0"
  /\ normalizeVersion (tab ++ "v1.0.0") = (tab ++ "v1.0.0")%string
  /\ first_match (fun x => Version_ x = "1.0.0") (rel "1.0.0" false) (Versions foo)
  /\ outcome (selectVersion prefixed "1.0.0" linux)
     = inl (ErrVersionNotFound "prefixed" "1.0.0" "Linux amd64").
Proof.
  destruct selectVersion_normalizes_request_only
    as (Hnorm & _ & _ & Hfirst & _ & Hraw).
  split; [rewrite Hnorm; reflexivity|].
  split; [rewrite Hnorm; reflexivity|].
  split.
  - apply (Hfirst foo " v1.0.0" linux).
    + vm_compute. discriminate.
    + reflexivity.
  - apply (Hraw "prefixed" (rel "v1.0.0" false) linux); reflexivity.
Defined.

(** C8, as stated, fails: the entry "v1.0.0" is compatible and has the
    normal form of the request "1.0.0", and the request is answered with
    [ErrVersionNotFound]; and a leading tab is not removed. *)
Lemma selectVersion_stored_marker_not_matched :
  isVersionCompatible (rel "v1.0.0" false) linux = true
  /\ normalizeVersion "v1.0.0" = normalizeVersion "1.0.0"
  /\ outcome (selectVersion prefixed "1.0.0" linux)
     = inl (ErrVersionNotFound "prefixed" "1.0.0" "Linux amd64")
  /\ normalizeVersion (tab ++ "1.0.0") <> "1.0.0".
Proof. repeat split. vm_compute. discriminate. Qed.

(** C10, as the code has it: a release whose architecture map is empty
    and not nil is not compatible with any constraints, so no selection
    returns it; a release passes the architecture check for every
    constraints exactly when its map is nil or holds the key "any". *)
Theorem empty_arch_map_never_selected :
  (forall (v : Version) (c : CompatOpts),
      Arch v = Some ∅ ->
      supportsCurrentArch v c = false
      /\ isVersionCompatible v c = false
      /\ (forall (p : Plugin) (req : string),
             outcome (selectVersion p req c) <> inr v))
  /\ (forall v : Version,
         (forall c : CompatOpts, supportsCurrentArch v c = true)
         <-> Arch v = None
             \/ exists m, Arch v = Some m /\ is_Some (m !! "any")).
Proof.
  split; [|exact supportsCurrentArch_forall_iff].
  intros v c H.
  pose proof (supportsCurrentArch_empty_map v c H) as Hs.
  assert (Hc : isVersionCompatible v c = false).
  { unfold isVersionCompatible. rewrite Hs. reflexivity. }
  repeat split; try assumption.
  intros p req Hout.
  apply selectVersion_inr_compatible in Hout. congruence.
Qed.

Lemma empty_arch_map_never_selected_witness :
  isVersionCompatible empty_arch darwin = false
  /\ (forall c : CompatOpts, supportsCurrentArch any_only c = true).
Proof.
  destruct empty_arch_map_never_selected as [Hempty Hevery].
  split.
  - apply (Hempty empty_arch darwin). reflexivity.
  - apply (Hevery any_only). right.
    exists (<["any" := mkArchMeta "sha2"]> ∅). split; [reflexivity|].
    rewrite lookup_insert_eq. eauto.
Defined.

(** C10, as stated, fails in its last clause: the map of [any_only] is
    not nil, and the release passes the architecture check for every
    constraints. *)
Lemma any_map_supports_every_arch :
  ~ (forall v : Version,
        (forall c : CompatOpts, supportsCurrentArch v c = true) -> Arch v = None).
Proof.
  intros H. specialize (H any_only). discriminate H.
  intros c. apply supportsCurrentArch_true. right.
  exists (<["any" := mkArchMeta "sha2"]> ∅). split; [reflexivity|].
  right. rewrite lookup_insert_eq. eauto.
Qed.

(** ** The download options *)

Lemma sha_map_wildcard (sha1 sha2 : string) :
  sha_map sha1 sha2 !! "darwin_arm64" = None
  /\ sha_map sha1 sha2 !! "any" = Some (mkArchMeta sha2).
Proof.
  unfold sha_map. split.
  - rewrite !lookup_insert_ne by discriminate. apply lookup_empty.
  - rewrite lookup_insert_ne by discriminate. apply lookup_insert_eq.
Qed.

Section DownloadOptions.

Variable URL : Type.
Variable url_Parse : string -> error + URL.
Variable url_JoinPath : URL -> string -> string -> URL.
Variable client_sendReq : URL -> CompatOpts -> M string.
Variable json_Unmarshal : string -> error + Plugin.

(** The code reads the checksum off the architecture entry it picked;
    the specification names the three cases. *)
Lemma options_of_selected
  (m : Manager) (pluginID version : string) (c : CompatOpts)
  (p : Plugin) (v : Version) (l1 l2 : list LogLine) :
  pluginMetadata URL url_Parse url_JoinPath client_sendReq json_Unmarshal m pluginID c
  = (l1, inr p) ->
  selectVersion p version c = (l2, inr v) ->
  GetPluginDownloadOptions URL url_Parse url_JoinPath client_sendReq json_Unmarshal
    m pluginID version c
  = (l1 ++ l2,
     inr {| dl_Version := Version_ v;
            Checksum := spec_checksum v c;
            PluginZipURL := baseURL m ++ "/" ++ pluginID ++ "/versions/"
                            ++ Version_ v ++ "/download" |}).
Proof.
  intros Hm Hs. unfold GetPluginDownloadOptions.
  rewrite Hm. unfold bind at 1. rewrite Hs. simpl.
  rewrite app_nil_r. do 3 f_equal.
  unfold spec_checksum. destruct (Arch v) as [arch|]; [|reflexivity].
  destruct (arch !! OSAndArch c); [reflexivity|].
  destruct (arch !! "any"); reflexivity.
Qed.

End DownloadOptions.

(** C9: for a release that was selected, [GetPluginDownloadOptions]
    returns the version string of the release, the URL
    baseURL/pluginID/versions/version/download, and the checksum at the
    exact architecture key, else the one at "any", else the empty string,
    and the empty string without an architecture map; with the map
    linux_amd64 -> sha1, any -> sha2 and the architecture darwin_arm64
    the checksum is sha2. *)
Theorem GetPluginDownloadOptions_plan
  (URL : Type) (url_Parse : string -> error + URL)
  (url_JoinPath : URL -> string -> string -> URL)
  (client_sendReq : URL -> CompatOpts -> M string)
  (json_Unmarshal : string -> error + Plugin)
  (m : Manager) (pluginID version : string) (c : CompatOpts)
  (p : Plugin) (v : Version) (l1 l2 : list LogLine) :
  pluginMetadata URL url_Parse url_JoinPath client_sendReq json_Unmarshal m pluginID c
  = (l1, inr p) ->
  selectVersion p version c = (l2, inr v) ->
  exists plan,
    GetPluginDownloadOptions URL url_Parse url_JoinPath client_sendReq json_Unmarshal
      m pluginID version c = (l1 ++ l2, inr plan)
    /\ dl_Version plan = Version_ v
    /\ PluginZipURL plan
       = (baseURL m ++ "/" ++ pluginID ++ "/versions/" ++ Version_ v ++ "/download")%string
    /\ Checksum plan = spec_checksum v c
    /\ (forall sha1 sha2 : string,
           Arch v = Some (sha_map sha1 sha2) ->
           OSAndArch c = "darwin_arm64" ->
           Checksum plan = sha2).
Proof.
  intros Hm Hs. eexists. split.
  - eapply options_of_selected; eassumption.
  - simpl. repeat split.
    intros sha1 sha2 Ha Ho. unfold spec_checksum. rewrite Ha, Ho.
    destruct (sha_map_wildcard sha1 sha2) as [-> ->]. reflexivity.
Qed.

Lemma GetPluginDownloadOptions_plan_witness :
  exists plan,
    GetPluginDownloadOptions string inr sample_JoinPath sample_sendReq sample_Unmarshal
      grafana_com "sums" "v1.0.0" darwin
    = ([sample_fetch_line] ++ [], inr plan)
    /\ dl_Version plan = "1.0.0"
    /\ PluginZipURL plan = "https://grafana.com/api/plugins/sums/versions/1.0.0/download"
    /\ Checksum plan = "sha2".
Proof.
  destruct (GetPluginDownloadOptions_plan string inr
              sample_JoinPath sample_sendReq sample_Unmarshal
              grafana_com "sums" "v1.0.0" darwin with_checksums
              {| Version_ := "1.0.0"; Arch := Some (sha_map "sha1" "sha2");
                 AngularDetected := false |}
              [sample_fetch_line] [])
    as (plan & Hplan & Hv & Hurl & _ & Hsum).
  - reflexivity.
  - vm_compute. reflexivity.
  - exists plan. repeat split.
    + exact Hplan.
    + exact Hv.
    + exact Hurl.
    + apply (Hsum "sha1" "sha2"); reflexivity.
Defined.

(** * Further properties *)

(** ** The selector: what it returns, fails with and logs *)

(** Every call of [selectVersion] takes one of four ways through the
    function. *)
Lemma selectVersion_cases (p : Plugin) (req : string) (c : CompatOpts) :
  (latestSupportedVersion p c = None
   /\ selectVersion p req c = fail (ErrSupportedVersionNotFound (ID p) (Readable c)))
  \/ (exists ls,
        latestSupportedVersion p c = Some ls
        /\ ((normalizeVersion req = "" /\ selectVersion p req c = ret ls)
            \/ (normalizeVersion req <> ""
                /\ Forall (fun x => Version_ x <> normalizeVersion req) (Versions p)
                /\ selectVersion p req c
                   = ([LogDebug (notFoundMsg (ID p) (normalizeVersion req) (Version_ ls))],
                      inl (ErrVersionNotFound (ID p) (normalizeVersion req) (Readable c))))
            \/ (exists e,
                  normalizeVersion req <> ""
                  /\ first_match (fun x => Version_ x = normalizeVersion req) e (Versions p)
                  /\ isVersionCompatible e c = false
                  /\ selectVersion p req c
                     = ([LogDebug (unsupportedMsg (ID p) (normalizeVersion req) (Version_ ls))],
                        inl (ErrVersionUnsupported (ID p) (normalizeVersion req) (Readable c))))
            \/ (exists e,
                  normalizeVersion req <> ""
                  /\ first_match (fun x => Version_ x = normalizeVersion req) e (Versions p)
                  /\ isVersionCompatible e c = true
                  /\ selectVersion p req c = ret e))).
Proof.
  destruct (latestSupportedVersion p c) as [ls|] eqn:Hls.
  - right. exists ls. split; [reflexivity|].
    destruct (normalized_empty_dec req) as [He|Hne].
    + left. split; [exact He|]. apply selectVersion_latest; assumption.
    + right.
      destruct (exact_match_dec (Versions p) (normalizeVersion req)) as [Hall|[e He]].
      * left. split; [exact Hne|]. split; [exact Hall|].
        apply selectVersion_not_found; assumption.
      * right.
        pose proof (selectVersion_first _ _ _ _ _ Hls Hne He) as Hsel.
        destruct (isVersionCompatible e c) eqn:E; [right | left];
          exists e; auto.
  - left. split; [reflexivity|]. apply selectVersion_none. exact Hls.
Qed.

Lemma latestSupported_In (p : Plugin) (c : CompatOpts) (ls : Version) :
  latestSupportedVersion p c = Some ls -> In ls (Versions p).
Proof.
  intros H. apply latestSupportedLoop_Some, first_match_In in H. tauto.
Qed.

Lemma selectVersion_returns_catalog_entry_aux
  (p : Plugin) (req : string) (c : CompatOpts) (v : Version) :
  outcome (selectVersion p req c) = inr v ->
  In v (Versions p)
  /\ (normalizeVersion req <> "" ->
      first_match (fun x => Version_ x = normalizeVersion req) v (Versions p)).
Proof.
  intros Hout.
  destruct (selectVersion_cases p req c)
    as [[_ Hs]|(ls & Hls & [[He Hs]|[(_ & _ & Hs)|[(e & _ & _ & _ & Hs)|(e & _ & He & _ & Hs)]]])];
    rewrite Hs in Hout; try discriminate Hout;
    injection Hout as <-; split.
  - exact (latestSupported_In _ _ _ Hls).
  - congruence.
  - apply first_match_In in He. tauto.
  - intros _. exact He.
Qed.

(** X1: a release that [selectVersion] returns is an entry of the catalog
    it was given, and a successful call logs nothing. *)
Theorem selectVersion_returns_catalog_entry
  (p : Plugin) (req : string) (c : CompatOpts) (v : Version) :
  outcome (selectVersion p req c) = inr v ->
  In v (Versions p) /\ logs (selectVersion p req c) = [].
Proof.
  intros Hout.
  destruct (selectVersion_cases p req c)
    as [[_ Hs]|(ls & Hls & [[_ Hs]|[(_ & _ & Hs)|[(e & _ & _ & _ & Hs)|(e & _ & He & _ & Hs)]]])];
    rewrite Hs in Hout |- *; try discriminate Hout;
    injection Hout as <-; split; try reflexivity.
  - exact (latestSupported_In _ _ _ Hls).
  - apply first_match_In in He. tauto.
Qed.

Lemma selectVersion_returns_catalog_entry_witness :
  In (rel "1.0.0" false) (Versions foo)
  /\ logs (selectVersion foo "v1.0.0" linux) = [].
Proof.
  apply (selectVersion_returns_catalog_entry foo "v1.0.0" linux).
  reflexivity.
Defined.

(** X2: an error of [selectVersion] is one of its three own kinds, and it
    carries the id of the plugin, the readable form of the constraints
    and, where a version was asked for, the normalised request. *)
Theorem selectVersion_error_kinds
  (p : Plugin) (req : string) (c : CompatOpts) (e : error) :
  outcome (selectVersion p req c) = inl e ->
  e = ErrSupportedVersionNotFound (ID p) (Readable c)
  \/ e = ErrVersionNotFound (ID p) (normalizeVersion req) (Readable c)
  \/ e = ErrVersionUnsupported (ID p) (normalizeVersion req) (Readable c).
Proof.
  intros Hout.
  destruct (selectVersion_cases p req c)
    as [[_ Hs]|(ls & Hls & [[_ Hs]|[(_ & _ & Hs)|[(x & _ & _ & _ & Hs)|(x & _ & _ & _ & Hs)]]])];
    rewrite Hs in Hout; try discriminate Hout;
    injection Hout as <-; auto.
Qed.

Lemma selectVersion_error_kinds_witness :
  ErrVersionNotFound "foo" "9.9.9" "Linux amd64"
  = ErrSupportedVersionNotFound (ID foo) (Readable linux)
  \/ ErrVersionNotFound "foo" "9.9.9" "Linux amd64"
     = ErrVersionNotFound (ID foo) (normalizeVersion "^9.9.9") (Readable linux)
  \/ ErrVersionNotFound "foo" "9.9.9" "Linux amd64"
     = ErrVersionUnsupported (ID foo) (normalizeVersion "^9.9.9") (Readable linux).
Proof.
  apply (selectVersion_error_kinds foo "^9.9.9" linux).
  reflexivity.
Defined.

(** X3: when [selectVersion] refuses an exact request, as not found or as
    unsupported, the fallback named in its one debug line is the version
    of the release that a request without version returns, a compatible
    entry of the catalog. *)
Theorem selectVersion_fallback_is_latest
  (p : Plugin) (req : string) (c : CompatOpts) (a b d : string) :
  outcome (selectVersion p req c) = inl (ErrVersionNotFound a b d)
  \/ outcome (selectVersion p req c) = inl (ErrVersionUnsupported a b d) ->
  exists ls,
    selectVersion p "" c = ret ls
    /\ In ls (Versions p)
    /\ isVersionCompatible ls c = true
    /\ (logs (selectVersion p req c)
        = [LogDebug (notFoundMsg (ID p) (normalizeVersion req) (Version_ ls))]
        \/ logs (selectVersion p req c)
           = [LogDebug (unsupportedMsg (ID p) (normalizeVersion req) (Version_ ls))]).
Proof.
  intros Hout.
  destruct (selectVersion_cases p req c)
    as [[_ Hs]|(ls & Hls & [[_ Hs]|[(_ & _ & Hs)|[(x & _ & _ & _ & Hs)|(x & _ & _ & _ & Hs)]]])];
    rewrite Hs in Hout |- *; simpl in Hout;
    try (destruct Hout as [Hout|Hout]; discriminate Hout);
    exists ls;
    (split; [apply selectVersion_latest; [exact Hls | reflexivity]|]);
    (split; [exact (latestSupported_In _ _ _ Hls)|]);
    (split; [exact (latestSupported_compatible _ _ _ Hls)|]);
    simpl; auto.
Qed.

Lemma selectVersion_fallback_is_latest_witness :
  exists ls,
    selectVersion angular_first "" linux = ret ls
    /\ In ls (Versions angular_first)
    /\ isVersionCompatible ls linux = true
    /\ (logs (selectVersion angular_first "3.0.0" linux)
        = [LogDebug (notFoundMsg (ID angular_first) (normalizeVersion "3.0.0") (Version_ ls))]
        \/ logs (selectVersion angular_first "3.0.0" linux)
           = [LogDebug (unsupportedMsg (ID angular_first) (normalizeVersion "3.0.0")
                          (Version_ ls))]).
Proof.
  apply (selectVersion_fallback_is_latest angular_first "3.0.0" linux
           "bar" "3.0.0" "Linux amd64").
  right. reflexivity.
Defined.

(** ** The selector under wider constraints and longer catalogs *)

Lemma supportsCurrentArch_same_arch (v : Version) (c c' : CompatOpts) :
  OSAndArch c' = OSAndArch c ->
  supportsCurrentArch v c' = supportsCurrentArch v c.
Proof. intros H. unfold supportsCurrentArch. rewrite H. reflexivity. Qed.

Lemma isVersionCompatible_wider (v : Version) (c c' : CompatOpts) :
  OSAndArch c' = OSAndArch c ->
  (AngularSupportEnabled c = true -> AngularSupportEnabled c' = true) ->
  isVersionCompatible v c = true -> isVersionCompatible v c' = true.
Proof.
  intros Ho Ha. unfold isVersionCompatible.
  rewrite (supportsCurrentArch_same_arch v c c' Ho).
  destruct (supportsCurrentArch v c); simpl; [|discriminate].
  destruct (AngularSupportEnabled c), (AngularSupportEnabled c'),
    (AngularDetected v); simpl; auto.
Qed.

(** X4: switching angular support on, for the same architecture, loses no
    selection: a request that was answered with a release is still
    answered with one, and an exact request with the same release. *)
Theorem selectVersion_angular_enabled
  (p : Plugin) (req : string) (c c' : CompatOpts) (v : Version) :
  OSAndArch c' = OSAndArch c ->
  (AngularSupportEnabled c = true -> AngularSupportEnabled c' = true) ->
  outcome (selectVersion p req c) = inr v ->
  (exists v', outcome (selectVersion p req c') = inr v')
  /\ (normalizeVersion req <> "" -> outcome (selectVersion p req c') = inr v).
Proof.
  intros Ho Ha Hout.
  pose proof (selectVersion_inr_compatible _ _ _ _ Hout) as Hc.
  destruct (selectVersion_returns_catalog_entry_aux p req c v Hout) as [Hin Hfirst].
  pose proof (isVersionCompatible_wider v c c' Ho Ha Hc) as Hc'.
  destruct (latestSupportedLoop_In _ _ _ Hin Hc') as [ls' Hls'].
  destruct (normalized_empty_dec req) as [He|Hne].
  - split; [|congruence].
    exists ls'. rewrite (selectVersion_latest _ _ _ _ Hls' He). reflexivity.
  - specialize (Hfirst Hne).
    pose proof (selectVersion_first _ _ _ _ _ Hls' Hne Hfirst) as Hs.
    rewrite Hc' in Hs. rewrite Hs. split; [exists v|]; reflexivity.
Qed.

Lemma selectVersion_angular_enabled_witness :
  (exists v', outcome (selectVersion angular_first "2.0.0" linux_angular) = inr v')
  /\ outcome (selectVersion angular_first "2.0.0" linux_angular)
     = inr (rel "2.0.0" false).
Proof.
  destruct (selectVersion_angular_enabled angular_first "2.0.0" linux linux_angular
              (rel "2.0.0" false)) as [Hsome Hsame].
  - reflexivity.
  - intros _. reflexivity.
  - reflexivity.
  - split; [exact Hsome|]. apply Hsame. vm_compute. discriminate.
Defined.

Lemma first_match_app {A} (P : A -> Prop) (x : A) (l more : list A) :
  first_match P x l -> first_match P x (l ++ more).
Proof.
  intros (l1 & l2 & -> & Hall & Hx).
  exists l1, (l2 ++ more). split; [|auto].
  rewrite <- app_assoc. reflexivity.
Qed.

(** X5: entries added at the end of the catalog do not change a
    selection that succeeded. *)
Theorem selectVersion_catalog_extension
  (p : Plugin) (req : string) (c : CompatOpts) (v : Version) (more : list Version) :
  outcome (selectVersion p req c) = inr v ->
  selectVersion {| ID := ID p; Versions := Versions p ++ more |} req c = ret v.
Proof.
  intros Hout.
  destruct (selectVersion_cases p req c)
    as [[_ Hs]|(ls & Hls & [[He Hs]|[(_ & _ & Hs)|[(e & _ & _ & _ & Hs)|(e & Hne & He & Hc & Hs)]]])];
    rewrite Hs in Hout; try discriminate Hout;
    injection Hout as <-.
  - apply selectVersion_latest; [|exact He].
    unfold latestSupportedVersion. simpl.
    apply latestSupportedLoop_Some, first_match_app, latestSupportedLoop_Some.
    exact Hls.
  - pose proof (first_match_app _ _ _ more He) as He'.
    destruct (first_match_In _ _ _ He') as [Hin _].
    destruct (latestSupportedLoop_In _ _ _ Hin Hc) as [ls' Hls'].
    rewrite (selectVersion_first {| ID := ID p; Versions := Versions p ++ more |}
               req c ls' e Hls' Hne He'), Hc.
    reflexivity.
Qed.

Lemma selectVersion_catalog_extension_witness :
  selectVersion
    {| ID := ID foo; Versions := Versions foo ++ [rel "2.0.0" true; rel "0.9.0" false] |}
    "2.0.0" linux
  = ret (rel "2.0.0" false).
Proof.
  apply (selectVersion_catalog_extension foo "2.0.0" linux).
  reflexivity.
Defined.

(** ** Normalisation: blank requests, spaces, fixed points *)

(** X6: a request normalises to the empty string, and so asks for the
    latest supported release, exactly when what is left of it after the
    spaces are taken out is empty or a lone "^" or "v". *)
Theorem normalizeVersion_empty_iff (v : string) :
  normalizeVersion v = ""
  <-> ReplaceAll_byte v " "%char "" = ""
      \/ ReplaceAll_byte v " "%char "" = "^"
      \/ ReplaceAll_byte v " "%char "" = "v".
Proof.
  unfold normalizeVersion.
  destruct (ReplaceAll_byte v " "%char "") as [|ch rest].
  - simpl. tauto.
  - destruct (HasPrefix (String ch rest) "^") eqn:E1;
      destruct (HasPrefix (String ch rest) "v") eqn:E2;
      cbn [orb slice_from_1].
    + apply HasPrefix_byte in E1, E2. congruence.
    + apply HasPrefix_byte in E1. subst ch. clear E2. split.
      * intros ->. auto.
      * intros [H|[H|H]]; congruence.
    + apply HasPrefix_byte in E2. subst ch. clear E1. split.
      * intros ->. auto.
      * intros [H|[H|H]]; congruence.
    + split; [discriminate|].
      intros [H|[H|H]]; try discriminate H; injection H as -> ->;
        vm_compute in E1, E2; discriminate.
Qed.

Lemma ReplaceAll_byte_app (s1 s2 : string) (b : ascii) :
  ReplaceAll_byte (s1 ++ s2) b "" = (ReplaceAll_byte s1 b "" ++ ReplaceAll_byte s2 b "")%string.
Proof.
  induction s1 as [|ch rest IH]; simpl; [reflexivity|].
  destruct (Ascii.eqb ch b); simpl; rewrite IH; reflexivity.
Qed.

(** X7: a space inside the requested version, wherever it stands, is not
    seen by the selector: the request is normalised, and answered, as the
    request without it. *)
Theorem normalizeVersion_ignores_space (s1 s2 : string) :
  normalizeVersion (s1 ++ " " ++ s2) = normalizeVersion (s1 ++ s2)
  /\ forall (p : Plugin) (c : CompatOpts),
       selectVersion p (s1 ++ " " ++ s2) c = selectVersion p (s1 ++ s2) c.
Proof.
  assert (H : normalizeVersion (s1 ++ " " ++ s2) = normalizeVersion (s1 ++ s2)).
  { unfold normalizeVersion. rewrite !ReplaceAll_byte_app. reflexivity. }
  split; [exact H|].
  intros p c. unfold selectVersion. rewrite H. reflexivity.
Qed.

(** X8: the strings that normalisation leaves as they are, are the ones
    without a space that do not begin with "^" or "v". *)
Theorem normalizeVersion_fixed_iff (v : string) :
  normalizeVersion v = v
  <-> has_byte " "%char v = false
      /\ HasPrefix v "^" || HasPrefix v "v" = false.
Proof.
  split.
  - intros Hfix.
    assert (Hsp : has_byte " "%char v = false).
    { rewrite <- Hfix. apply normalizeVersion_no_space. }
    split; [exact Hsp|].
    rewrite (normalizeVersion_space_free v Hsp) in Hfix.
    destruct (_ || _) eqn:E; [|reflexivity]. exfalso.
    assert (Hne : v <> "").
    { apply orb_true_iff in E as [E|E];
        eapply HasPrefix_nonempty; try exact E; discriminate. }
    pose proof (slice_from_1_shorter v Hne) as Hlt.
    rewrite Hfix in Hlt. lia.
  - intros [Hsp Hpre].
    rewrite (normalizeVersion_space_free v Hsp), Hpre. reflexivity.
Qed.

(** ** Compatibility: iteration order, wildcard, added architectures *)

(** X9: whatever order the range statement of [supportsCurrentArch]
    yields the keys of the architecture map in, the result is the same. *)
Theorem supportsCurrentArch_any_order
  (v : Version) (c : CompatOpts) (m : gmap string ArchMeta) (keys : list string) :
  Arch v = Some m ->
  Permutation keys (map fst (map_to_list m)) ->
  archLoop keys (OSAndArch c) = supportsCurrentArch v c.
Proof.
  intros Ha HP. unfold supportsCurrentArch. rewrite Ha.
  apply archLoop_Permutation. exact HP.
Qed.

Lemma supportsCurrentArch_any_order_witness :
  archLoop (rev (map fst (map_to_list (sha_map "sha1" "sha2")))) (OSAndArch darwin)
  = supportsCurrentArch
      {| Version_ := "1.0.0"; Arch := Some (sha_map "sha1" "sha2");
         AngularDetected := false |} darwin.
Proof.
  apply (supportsCurrentArch_any_order _ darwin (sha_map "sha1" "sha2")).
  - reflexivity.
  - apply Permutation_sym, Permutation_rev.
Defined.

(** X10: a release passes the architecture check for every constraints
    exactly when it has no architecture map or its map has the key
    "any". *)
Theorem supportsCurrentArch_every_arch_iff (v : Version) :
  (forall c : CompatOpts, supportsCurrentArch v c = true)
  <-> Arch v = None
      \/ exists m, Arch v = Some m /\ is_Some (m !! "any").
Proof. exact (supportsCurrentArch_forall_iff v). Qed.

(** X11: one more entry in the architecture map of a compatible release
    leaves it compatible. *)
Theorem isVersionCompatible_added_arch
  (v : Version) (c : CompatOpts) (m : gmap string ArchMeta)
  (k : string) (x : ArchMeta) :
  Arch v = Some m ->
  isVersionCompatible v c = true ->
  isVersionCompatible
    {| Version_ := Version_ v; Arch := Some (<[k := x]> m);
       AngularDetected := AngularDetected v |} c = true.
Proof.
  intros Ha. unfold isVersionCompatible. simpl.
  destruct (supportsCurrentArch v c) eqn:Hs; simpl; [|discriminate].
  intros Hang.
  assert (Hs' : supportsCurrentArch
                  {| Version_ := Version_ v; Arch := Some (<[k := x]> m);
                     AngularDetected := AngularDetected v |} c = true).
  { apply supportsCurrentArch_true. right. exists (<[k := x]> m).
    split; [reflexivity|].
    apply supportsCurrentArch_true in Hs as [Hn|(m' & Hm' & Hk)]; [congruence|].
    assert (m' = m) by congruence. subst m'.
    rewrite !lookup_insert_is_Some'. tauto. }
  rewrite Hs'. exact Hang.
Qed.

Lemma isVersionCompatible_added_arch_witness :
  isVersionCompatible
    {| Version_ := "1.0.0";
       Arch := Some (<["windows-amd64" := mkArchMeta "sha3"]> (sha_map "sha1" "sha2"));
       AngularDetected := false |} darwin = true.
Proof.
  apply (isVersionCompatible_added_arch
           {| Version_ := "1.0.0"; Arch := Some (sha_map "sha1" "sha2");
              AngularDetected := false |} darwin (sha_map "sha1" "sha2")).
  - reflexivity.
  - vm_compute. reflexivity.
Defined.

(** ** The manager: metadata, download options, archive *)

Lemma outcome_bind {A B} (m : M A) (k : A -> M B) :
  outcome (bind m k)
  = match outcome m with
    | inl e => inl e
    | inr a => outcome (k a)
    end.
Proof.
  destruct m as [ls [e|a]]; simpl; [reflexivity|].
  destruct (k a). reflexivity.
Qed.

Lemma logs_bind {A B} (m : M A) (k : A -> M B) :
  logs (bind m k)
  = logs m ++ match outcome m with
              | inl _ => []
              | inr a => logs (k a)
              end.
Proof.
  destruct m as [ls [e|a]]; simpl; [rewrite app_nil_r; reflexivity|].
  destruct (k a). reflexivity.
Qed.

Section ManagerProperties.

Variable URL : Type.
Variable url_Parse : string -> error + URL.
Variable url_JoinPath : URL -> string -> string -> URL.
Variable client_sendReq : URL -> CompatOpts -> M string.
Variable json_Unmarshal : string -> error + Plugin.

Variable m : Manager.
Variable pluginID : string.
Variable c : CompatOpts.

Lemma pluginMetadata_outcome :
  outcome (pluginMetadata URL url_Parse url_JoinPath client_sendReq json_Unmarshal
             m pluginID c)
  = match url_Parse (baseURL m) with
    | inl err => inl err
    | inr u =>
        match outcome (client_sendReq (url_JoinPath u "repo" pluginID) c) with
        | inl err => inl err
        | inr body => json_Unmarshal body
        end
    end.
Proof.
  unfold pluginMetadata. rewrite outcome_bind. simpl.
  destruct (url_Parse (baseURL m)) as [err|u]; [reflexivity|].
  rewrite outcome_bind.
  destruct (outcome (client_sendReq (url_JoinPath u "repo" pluginID) c)) as [err|body];
    [reflexivity|].
  destruct (json_Unmarshal body); reflexivity.
Qed.

(** X12: [pluginMetadata] returns a catalog exactly when the base URL
    parses, the request to its path joined with "repo" and the plugin id
    is answered with a body, and the body decodes to that catalog. *)
Theorem pluginMetadata_ok_iff (data : Plugin) :
  outcome (pluginMetadata URL url_Parse url_JoinPath client_sendReq json_Unmarshal
             m pluginID c) = inr data
  <-> exists u body,
      url_Parse (baseURL m) = inr u
      /\ outcome (client_sendReq (url_JoinPath u "repo" pluginID) c) = inr body
      /\ json_Unmarshal body = inr data.
Proof.
  rewrite pluginMetadata_outcome. split.
  - destruct (url_Parse (baseURL m)) as [err|u]; [discriminate|].
    destruct (outcome (client_sendReq _ c)) as [err|body] eqn:E; [discriminate|].
    intros H. exists u, body. auto.
  - intros (u & body & -> & -> & H). exact H.
Qed.

(** X14: a body that does not decode makes [pluginMetadata] fail with the
    error of the decoder, after one line at error level that holds the
    error, behind the lines of the fetch and of the client. *)
Theorem pluginMetadata_unmarshal_error
  (u : URL) (ls : list LogLine) (body : string) (err : error) :
  url_Parse (baseURL m) = inr u ->
  client_sendReq (url_JoinPath u "repo" pluginID) c = (ls, inr body) ->
  json_Unmarshal body = inl err ->
  pluginMetadata URL url_Parse url_JoinPath client_sendReq json_Unmarshal m pluginID c
  = (fetchLine m pluginID :: ls
       ++ [LogError "Failed to unmarshal plugin repo response error" err],
     inl err).
Proof.
  intros Hu Hreq Hjson. unfold pluginMetadata.
  rewrite Hu, Hreq. simpl. rewrite Hjson. reflexivity.
Qed.

End ManagerProperties.

(** X13: [pluginMetadata] asks the client for one thing, the path of the
    base URL joined with "repo" and the plugin id: two clients with the
    same answer to that request give the same result, and no client is
    asked when the base URL does not parse. *)
Theorem pluginMetadata_one_request
  (URL : Type) (url_Parse : string -> error + URL)
  (url_JoinPath : URL -> string -> string -> URL)
  (client1 client2 : URL -> CompatOpts -> M string)
  (json_Unmarshal : string -> error + Plugin)
  (m : Manager) (pluginID : string) (c : CompatOpts) :
  (forall u, url_Parse (baseURL m) = inr u ->
             client1 (url_JoinPath u "repo" pluginID) c
             = client2 (url_JoinPath u "repo" pluginID) c) ->
  pluginMetadata URL url_Parse url_JoinPath client1 json_Unmarshal m pluginID c
  = pluginMetadata URL url_Parse url_JoinPath client2 json_Unmarshal m pluginID c.
Proof.
  intros H. unfold pluginMetadata.
  destruct (url_Parse (baseURL m)) as [err|u]; [reflexivity|].
  rewrite (H u eq_refl). reflexivity.
Qed.

Lemma pluginMetadata_unmarshal_error_witness :
  pluginMetadata string inr sample_JoinPath sample_sendReq failing_Unmarshal
    grafana_com "sums" darwin
  = (fetchLine grafana_com "sums" :: []
       ++ [LogError "Failed to unmarshal plugin repo response error"
             (ErrExternal "unexpected end of JSON input")],
     inl (ErrExternal "unexpected end of JSON input")).
Proof.
  apply (pluginMetadata_unmarshal_error string inr sample_JoinPath sample_sendReq
           failing_Unmarshal grafana_com "sums" darwin
           "https://grafana.com/api/plugins" [] "{}");
    reflexivity.
Defined.

Lemma pluginMetadata_one_request_witness :
  pluginMetadata string inr sample_JoinPath sample_sendReq sample_Unmarshal
    grafana_com "sums" darwin
  = pluginMetadata string inr sample_JoinPath picky_sendReq sample_Unmarshal
      grafana_com "sums" darwin.
Proof.
  apply pluginMetadata_one_request.
  intros u Hu. injection Hu as <-. reflexivity.
Defined.

Section OptionsProperties.

Variable URL : Type.
Variable url_Parse : string -> error + URL.
Variable url_JoinPath : URL -> string -> string -> URL.
Variable client_sendReq : URL -> CompatOpts -> M string.
Variable json_Unmarshal : string -> error + Plugin.

Variable m : Manager.
Variable pluginID version : string.
Variable c : CompatOpts.

(** X15: [GetPluginDownloadOptions] fails with the error of the metadata
    fetch, or else with the error of the selection on the catalog that
    was fetched, and with no other. *)
Theorem GetPluginDownloadOptions_error_iff (e : error) :
  outcome (GetPluginDownloadOptions URL url_Parse url_JoinPath client_sendReq
             json_Unmarshal m pluginID version c) = inl e
  <-> outcome (pluginMetadata URL url_Parse url_JoinPath client_sendReq
                 json_Unmarshal m pluginID c) = inl e
      \/ exists p,
          outcome (pluginMetadata URL url_Parse url_JoinPath client_sendReq
                     json_Unmarshal m pluginID c) = inr p
          /\ outcome (selectVersion p version c) = inl e.
Proof.
  unfold GetPluginDownloadOptions. rewrite outcome_bind.
  destruct (outcome (pluginMetadata _ _ _ _ _ m pluginID c)) as [e'|p].
  - simpl. split.
    + intros [= ->]. left. reflexivity.
    + intros [[= ->]|(p & H & _)]; [reflexivity | discriminate H].
  - simpl. rewrite outcome_bind.
    destruct (outcome (selectVersion p version c)) as [e'|v] eqn:Hs; simpl.
    + split.
      * intros [= ->]. right. exists p. split; [reflexivity | exact Hs].
      * intros [H|(p' & [= <-] & H)]; [discriminate H|].
        rewrite Hs in H. injection H as ->. reflexivity.
    + split; [discriminate|].
      intros [H|(p' & [= <-] & H)]; [discriminate H|]. rewrite Hs in H. discriminate H.
Qed.

Lemma options_inr_inv (plan : PluginDownloadOptions) :
  outcome (GetPluginDownloadOptions URL url_Parse url_JoinPath client_sendReq
             json_Unmarshal m pluginID version c) = inr plan ->
  exists p v,
    outcome (pluginMetadata URL url_Parse url_JoinPath client_sendReq
               json_Unmarshal m pluginID c) = inr p
    /\ outcome (selectVersion p version c) = inr v
    /\ plan = {| dl_Version := Version_ v;
                 Checksum := spec_checksum v c;
                 PluginZipURL := downloadURL m pluginID (Version_ v) |}.
Proof.
  destruct (pluginMetadata URL url_Parse url_JoinPath client_sendReq
              json_Unmarshal m pluginID c) as [l1 [e|p]] eqn:Hm.
  - unfold GetPluginDownloadOptions. rewrite Hm. discriminate.
  - destruct (selectVersion p version c) as [l2 [e|v]] eqn:Hs.
    + unfold GetPluginDownloadOptions. rewrite Hm. unfold bind at 1. rewrite Hs.
      discriminate.
    + rewrite (options_of_selected _ _ _ _ _ _ _ _ _ _ _ _ _ Hm Hs).
      intros [= <-]. exists p, v. rewrite Hs. auto.
Qed.

(** X16: the download options name a release of the catalog that was
    fetched, compatible with the constraints; the version in them is that
    of the release, and the normalised request where a version was asked
    for; the address is built on that version. *)
Theorem GetPluginDownloadOptions_sound (plan : PluginDownloadOptions) :
  outcome (GetPluginDownloadOptions URL url_Parse url_JoinPath client_sendReq
             json_Unmarshal m pluginID version c) = inr plan ->
  exists p v,
    outcome (pluginMetadata URL url_Parse url_JoinPath client_sendReq
               json_Unmarshal m pluginID c) = inr p
    /\ In v (Versions p)
    /\ isVersionCompatible v c = true
    /\ dl_Version plan = Version_ v
    /\ (normalizeVersion version <> "" -> dl_Version plan = normalizeVersion version)
    /\ PluginZipURL plan = downloadURL m pluginID (dl_Version plan).
Proof.
  intros H. destruct (options_inr_inv plan H) as (p & v & Hm & Hs & ->).
  exists p, v. simpl.
  destruct (selectVersion_returns_catalog_entry_aux p version c v Hs) as [Hin Hfirst].
  repeat split; try assumption.
  - exact (selectVersion_inr_compatible _ _ _ _ Hs).
  - intros Hne. apply Hfirst, first_match_In in Hne. tauto.
Qed.

(** X17: the checksum of the download options is empty for a release
    without architecture map, and otherwise the checksum of an entry that
    the map holds, at the exact architecture or at "any": the zero value
    of a missing entry is never what is returned. *)
Theorem GetPluginDownloadOptions_checksum_of_entry (plan : PluginDownloadOptions) :
  outcome (GetPluginDownloadOptions URL url_Parse url_JoinPath client_sendReq
             json_Unmarshal m pluginID version c) = inr plan ->
  exists p v,
    outcome (pluginMetadata URL url_Parse url_JoinPath client_sendReq
               json_Unmarshal m pluginID c) = inr p
    /\ outcome (selectVersion p version c) = inr v
    /\ match Arch v with
       | None => Checksum plan = ""
       | Some arch =>
           exists k x,
             (k = OSAndArch c \/ k = "any")
             /\ arch !! k = Some x
             /\ Checksum plan = SHA256 x
       end.
Proof.
  intros H. destruct (options_inr_inv plan H) as (p & v & Hm & Hs & ->).
  exists p, v. split; [exact Hm|]. split; [exact Hs|].
  pose proof (selectVersion_inr_compatible _ _ _ _ Hs) as Hc.
  unfold isVersionCompatible in Hc.
  destruct (supportsCurrentArch v c) eqn:Hsup; [|discriminate Hc].
  apply supportsCurrentArch_true in Hsup.
  simpl. unfold spec_checksum.
  destruct (Arch v) as [arch|]; [|reflexivity].
  destruct Hsup as [Hn|(arch' & [= <-] & Hk)]; [discriminate Hn|].
  destruct (arch !! OSAndArch c) as [x|] eqn:Hx.
  - exists (OSAndArch c), x. auto.
  - destruct Hk as [[x' Hx']|[y Hy]]; [discriminate Hx'|].
    rewrite Hy. exists "any", y. auto.
Qed.

End OptionsProperties.

Lemma GetPluginDownloadOptions_sound_witness :
  exists p v,
    outcome (pluginMetadata string inr sample_JoinPath sample_sendReq sample_Unmarshal
               grafana_com "sums" darwin) = inr p
    /\ In v (Versions p)
    /\ isVersionCompatible v darwin = true
    /\ "1.0.0" = Version_ v
    /\ (normalizeVersion "v1.0.0" <> "" -> "1.0.0" = normalizeVersion "v1.0.0")
    /\ "https://grafana.com/api/plugins/sums/versions/1.0.0/download"
       = downloadURL grafana_com "sums" "1.0.0".
Proof.
  apply (GetPluginDownloadOptions_sound string inr sample_JoinPath sample_sendReq
           sample_Unmarshal grafana_com "sums" "v1.0.0" darwin
           {| dl_Version := "1.0.0"; Checksum := "sha2";
              PluginZipURL :=
                "https://grafana.com/api/plugins/sums/versions/1.0.0/download" |}).
  vm_compute. reflexivity.
Defined.

Lemma GetPluginDownloadOptions_checksum_of_entry_witness :
  exists p v,
    outcome (pluginMetadata string inr sample_JoinPath sample_sendReq sample_Unmarshal
               grafana_com "sums" darwin) = inr p
    /\ outcome (selectVersion p "v1.0.0" darwin) = inr v
    /\ match Arch v with
       | None => "sha2" = ""
       | Some arch =>
           exists k x,
             (k = OSAndArch darwin \/ k = "any")
             /\ arch !! k = Some x
             /\ "sha2" = SHA256 x
       end.
Proof.
  apply (GetPluginDownloadOptions_checksum_of_entry string inr sample_JoinPath
           sample_sendReq sample_Unmarshal grafana_com "sums" "v1.0.0" darwin
           {| dl_Version := "1.0.0"; Checksum := "sha2";
              PluginZipURL :=
                "https://grafana.com/api/plugins/sums/versions/1.0.0/download" |}).
  vm_compute. reflexivity.
Defined.

Lemma GetPluginDownloadOptions_error_iff_witness :
  outcome (GetPluginDownloadOptions string inr sample_JoinPath sample_sendReq
             angular_Unmarshal grafana_com "bar" "3.0.0" linux)
  = inl (ErrVersionUnsupported "bar" "3.0.0" "Linux amd64").
Proof.
  apply GetPluginDownloadOptions_error_iff. right.
  exists angular_first. split; reflexivity.
Defined.

Section ArchiveProperties.

Variable URL : Type.
Variable url_Parse : string -> error + URL.
Variable url_JoinPath : URL -> string -> string -> URL.
Variable client_sendReq : URL -> CompatOpts -> M string.
Variable json_Unmarshal : string -> error + Plugin.
Variable PluginArchive : Type.
Variable client_download : string -> string -> CompatOpts -> M PluginArchive.

Variable m : Manager.
Variable pluginID version : string.
Variable c : CompatOpts.

Lemma options_outcome :
  outcome (GetPluginDownloadOptions URL url_Parse url_JoinPath client_sendReq
             json_Unmarshal m pluginID version c)
  = match outcome (pluginMetadata URL url_Parse url_JoinPath client_sendReq
                     json_Unmarshal m pluginID c) with
    | inl e => inl e
    | inr p =>
        match outcome (selectVersion p version c) with
        | inl e => inl e
        | inr v => inr {| dl_Version := Version_ v;
                          Checksum := spec_checksum v c;
                          PluginZipURL := downloadURL m pluginID (Version_ v) |}
        end
    end.
Proof.
  destruct (pluginMetadata URL url_Parse url_JoinPath client_sendReq
              json_Unmarshal m pluginID c) as [l1 [e|p]] eqn:Hm.
  - unfold GetPluginDownloadOptions. rewrite Hm. reflexivity.
  - simpl. destruct (selectVersion p version c) as [l2 [e|v]] eqn:Hs.
    + unfold GetPluginDownloadOptions. rewrite Hm. unfold bind at 1. rewrite Hs.
      reflexivity.
    + rewrite (options_of_selected _ _ _ _ _ _ _ _ _ _ _ _ _ Hm Hs). reflexivity.
Qed.

(** X18: for a release that was selected, [GetPluginArchive] is the
    download from the address built on the version of the release, with
    the checksum resolved for the constraints, behind the lines of the
    fetch and of the selection. *)
Theorem GetPluginArchive_downloads_selected
  (p : Plugin) (v : Version) (l1 l2 : list LogLine) :
  pluginMetadata URL url_Parse url_JoinPath client_sendReq json_Unmarshal m pluginID c
  = (l1, inr p) ->
  selectVersion p version c = (l2, inr v) ->
  GetPluginArchive URL url_Parse url_JoinPath client_sendReq json_Unmarshal
    PluginArchive client_download m pluginID version c
  = (l1 ++ l2
       ++ logs (client_download (downloadURL m pluginID (Version_ v)) (spec_checksum v c) c),
     outcome (client_download (downloadURL m pluginID (Version_ v)) (spec_checksum v c) c)).
Proof.
  intros Hm Hs. unfold GetPluginArchive.
  rewrite (options_of_selected _ _ _ _ _ _ _ _ _ _ _ _ _ Hm Hs).
  unfold bind. simpl. fold (downloadURL m pluginID (Version_ v)).
  destruct (client_download _ _ c) as [l3 r]. simpl.
  rewrite app_assoc. reflexivity.
Qed.

(** X19: [GetPluginArchive] fails with the first error on its way: that
    of the metadata fetch, else that of the selection, else that of the
    download of the selected release; it fails in no other way. *)
Theorem GetPluginArchive_error_iff (e : error) :
  outcome (GetPluginArchive URL url_Parse url_JoinPath client_sendReq json_Unmarshal
             PluginArchive client_download m pluginID version c) = inl e
  <-> outcome (pluginMetadata URL url_Parse url_JoinPath client_sendReq
                 json_Unmarshal m pluginID c) = inl e
      \/ exists p,
          outcome (pluginMetadata URL url_Parse url_JoinPath client_sendReq
                     json_Unmarshal m pluginID c) = inr p
          /\ (outcome (selectVersion p version c) = inl e
              \/ exists v,
                  outcome (selectVersion p version c) = inr v
                  /\ outcome (client_download (downloadURL m pluginID (Version_ v))
                                (spec_checksum v c) c) = inl e).
Proof.
  unfold GetPluginArchive. rewrite outcome_bind, options_outcome.
  destruct (outcome (pluginMetadata _ _ _ _ _ m pluginID c)) as [e'|p].
  - split.
    + intros [= ->]. left. reflexivity.
    + intros [[= ->]|(p & H & _)]; [reflexivity | discriminate H].
  - destruct (outcome (selectVersion p version c)) as [e'|v] eqn:Hs.
    + split.
      * intros [= ->]. right. exists p. split; [reflexivity|]. left. exact Hs.
      * intros [H|(p' & [= <-] & [H|(v & H & _)])]; try discriminate H.
        -- rewrite Hs in H. injection H as ->. reflexivity.
        -- rewrite Hs in H. discriminate H.
    + simpl. split.
      * intros H. right. exists p. split; [reflexivity|]. right. exists v.
        split; [exact Hs | exact H].
      * intros [H|(p' & [= <-] & [H|(v' & H & Hd)])]; try discriminate H.
        -- rewrite Hs in H. discriminate H.
        -- rewrite Hs in H. injection H as <-. exact Hd.
Qed.

(** X20: for a selected release without architecture map, the archive is
    what [GetPluginArchiveByURL] gives for the address of the release: in
    both the download has no checksum to hold the archive against. *)
Theorem GetPluginArchive_without_arch_map (p : Plugin) (v : Version) :
  outcome (pluginMetadata URL url_Parse url_JoinPath client_sendReq
             json_Unmarshal m pluginID c) = inr p ->
  outcome (selectVersion p version c) = inr v ->
  Arch v = None ->
  outcome (GetPluginArchive URL url_Parse url_JoinPath client_sendReq json_Unmarshal
             PluginArchive client_download m pluginID version c)
  = outcome (GetPluginArchiveByURL PluginArchive client_download m
               (downloadURL m pluginID (Version_ v)) c).
Proof.
  intros Hm Hs Ha. unfold GetPluginArchive, GetPluginArchiveByURL.
  rewrite outcome_bind, options_outcome, Hm, Hs. simpl.
  unfold spec_checksum. rewrite Ha. reflexivity.
Qed.

End ArchiveProperties.

Lemma GetPluginArchive_downloads_selected_witness :
  GetPluginArchive string inr sample_JoinPath sample_sendReq sample_Unmarshal
    (string * string) sample_download grafana_com "sums" "v1.0.0" darwin
  = ([sample_fetch_line] ++ []
       ++ logs (sample_download (downloadURL grafana_com "sums" "1.0.0") "sha2" darwin),
     outcome (sample_download (downloadURL grafana_com "sums" "1.0.0") "sha2" darwin)).
Proof.
  apply (GetPluginArchive_downloads_selected string inr sample_JoinPath sample_sendReq
           sample_Unmarshal (string * string) sample_download
           grafana_com "sums" "v1.0.0" darwin with_checksums
           {| Version_ := "1.0.0"; Arch := Some (sha_map "sha1" "sha2");
              AngularDetected := false |}
           [sample_fetch_line] []).
  - reflexivity.
  - vm_compute. reflexivity.
Defined.

Lemma GetPluginArchive_error_iff_witness :
  outcome (GetPluginArchive string inr sample_JoinPath failing_sendReq sample_Unmarshal
             (string * string) sample_download grafana_com "sums" "v1.0.0" darwin)
  = inl (ErrExternal "connection refused").
Proof.
  apply GetPluginArchive_error_iff. left. reflexivity.
Defined.

Lemma GetPluginArchive_without_arch_map_witness :
  outcome (GetPluginArchive string inr sample_JoinPath sample_sendReq angular_Unmarshal
             (string * string) sample_download grafana_com "bar" "2.0.0" linux)
  = outcome (GetPluginArchiveByURL (string * string) sample_download grafana_com
               (downloadURL grafana_com "bar" "2.0.0") linux).
Proof.
  apply (GetPluginArchive_without_arch_map string inr sample_JoinPath sample_sendReq
           angular_Unmarshal (string * string) sample_download
           grafana_com "bar" "2.0.0" linux angular_first (rel "2.0.0" false));
    reflexivity.
Defined.
